(** * JBC fume-extractor (P02) command registry

    A shallow embedding of [jbc_FE_commands_full.h]: the two namespaces
    [jbc_cmd::BASE] and [jbc_cmd::FE_02] of single-byte command
    identifiers, and the properties of these tables that a protocol
    engine dispatching on them relies on. *)

From Stdlib Require Import ZArith List String Bool Lia.
From Stdlib Require Import Sorting.Sorted.
Import ListNotations.

Open Scope string_scope.
Open Scope Z_scope.

(** ** Data model *)

(** [uint8_t]: the header stores every identifier in one unsigned byte.
    Values are carried as [Z]; [is_uint8] is the range of the C type. *)
Definition uint8_t : Type := Z.

Definition is_uint8 (b : Z) : Prop := 0 <= b < 256.

(** A namespace is read as the ordered list of its declarations
    [static const uint8_t NAME = value;]. *)
Definition cmd_table : Type := list (string * uint8_t).

Module BASE.

Definition M_HS : uint8_t := 0.
Definition M_ACK : uint8_t := 6.
Definition M_NACK : uint8_t := 21.
Definition M_SYN : uint8_t := 22.
Definition M_RESET : uint8_t := 32.
Definition M_FIRMWARE : uint8_t := 33.

Definition table : cmd_table :=
  [ ("M_HS", M_HS);
    ("M_ACK", M_ACK);
    ("M_NACK", M_NACK);
    ("M_SYN", M_SYN);
    ("M_RESET", M_RESET);
    ("M_FIRMWARE", M_FIRMWARE) ].

End BASE.

Module FE_02.

Definition M_HS : uint8_t := 0.
Definition M_EOT : uint8_t := 4.
Definition M_ACK : uint8_t := 6.
Definition M_NACK : uint8_t := 21.
Definition M_SYN : uint8_t := 22.
Definition M_R_DEVICEIDORIGINAL : uint8_t := 28.
Definition M_R_DISCOVER : uint8_t := 29.
Definition M_R_DEVICEID : uint8_t := 30.
Definition M_W_DEVICEID : uint8_t := 31.
Definition M_RESET : uint8_t := 32.
Definition M_FIRMWARE : uint8_t := 33.
Definition M_CLEARMEMFLASH : uint8_t := 34.
Definition M_SENDMEMADDRESS : uint8_t := 35.
Definition M_SENDMEMDATA : uint8_t := 36.
Definition M_ENDPROGR : uint8_t := 37.
Definition M_ENDUPD : uint8_t := 38.
Definition M_CONTINUEUPD : uint8_t := 39.
Definition M_CLEARING : uint8_t := 40.
Definition M_FORCEUPDATE : uint8_t := 41.
Definition M_R_SUCTIONLEVEL : uint8_t := 48.
Definition M_W_SUCTIONLEVEL : uint8_t := 49.
Definition M_R_FLOW : uint8_t := 50.
Definition M_R_SPEED : uint8_t := 51.
Definition M_R_SELECTFLOW : uint8_t := 52.
Definition M_W_SELECTFLOW : uint8_t := 53.
Definition M_R_STANDINTAKES : uint8_t := 54.
Definition M_W_STANDINTAKES : uint8_t := 55.
Definition M_R_INTAKEACTIVATION : uint8_t := 56.
Definition M_W_INTAKEACTIVATION : uint8_t := 57.
Definition M_R_SUCTIONDELAY : uint8_t := 58.
Definition M_W_SUCTIONDELAY : uint8_t := 59.
Definition M_R_DELAYTIME : uint8_t := 60.
Definition M_R_ACTIVATIONPEDAL : uint8_t := 61.
Definition M_W_ACTIVATIONPEDAL : uint8_t := 62.
Definition M_R_PEDALMODE : uint8_t := 63.
Definition M_W_PEDALMODE : uint8_t := 64.
Definition M_R_FILTERSTATUS : uint8_t := 65.
Definition M_R_RESETFILTER : uint8_t := 66.
Definition M_R_CONNECTEDPEDAL : uint8_t := 68.
Definition M_R_FILTERSAT : uint8_t := 69.
Definition M_RESETSTATION : uint8_t := 80.
Definition M_R_PIN : uint8_t := 81.
Definition M_W_PIN : uint8_t := 82.
Definition M_R_STATIONLOCKED : uint8_t := 83.
Definition M_W_STATIONLOCKED : uint8_t := 84.
Definition M_R_BEEP : uint8_t := 85.
Definition M_W_BEEP : uint8_t := 86.
Definition M_R_CONTINUOUSSUCTION : uint8_t := 87.
Definition M_W_CONTINUOUSSUCTION : uint8_t := 88.
Definition M_R_STATERROR : uint8_t := 89.
Definition M_R_DEVICENAME : uint8_t := 91.
Definition M_W_DEVICENAME : uint8_t := 92.
Definition M_R_PINENABLED : uint8_t := 93.
Definition M_W_PINENABLED : uint8_t := 94.
Definition M_W_WORKINTAKES : uint8_t := 96.
Definition M_R_COUNTERS : uint8_t := 192.
Definition M_R_RESETCOUNTERS : uint8_t := 193.
Definition M_R_COUNTERSP : uint8_t := 194.
Definition M_R_RESETCOUNTERSP : uint8_t := 195.
Definition M_R_USB_CONNECTSTATUS : uint8_t := 224.
Definition M_W_USB_CONNECTSTATUS : uint8_t := 225.
Definition M_R_RBT_CONNCONFIG : uint8_t := 240.
Definition M_W_RBT_CONNCONFIG : uint8_t := 241.
Definition M_R_RBT_CONNECTSTATUS : uint8_t := 242.
Definition M_W_RBT_CONNECTSTATUS : uint8_t := 243.

Definition table : cmd_table :=
  [ ("M_HS", M_HS);
    ("M_EOT", M_EOT);
    ("M_ACK", M_ACK);
    ("M_NACK", M_NACK);
    ("M_SYN", M_SYN);
    ("M_R_DEVICEIDORIGINAL", M_R_DEVICEIDORIGINAL);
    ("M_R_DISCOVER", M_R_DISCOVER);
    ("M_R_DEVICEID", M_R_DEVICEID);
    ("M_W_DEVICEID", M_W_DEVICEID);
    ("M_RESET", M_RESET);
    ("M_FIRMWARE", M_FIRMWARE);
    ("M_CLEARMEMFLASH", M_CLEARMEMFLASH);
    ("M_SENDMEMADDRESS", M_SENDMEMADDRESS);
    ("M_SENDMEMDATA", M_SENDMEMDATA);
    ("M_ENDPROGR", M_ENDPROGR);
    ("M_ENDUPD", M_ENDUPD);
    ("M_CONTINUEUPD", M_CONTINUEUPD);
    ("M_CLEARING", M_CLEARING);
    ("M_FORCEUPDATE", M_FORCEUPDATE);
    ("M_R_SUCTIONLEVEL", M_R_SUCTIONLEVEL);
    ("M_W_SUCTIONLEVEL", M_W_SUCTIONLEVEL);
    ("M_R_FLOW", M_R_FLOW);
    ("M_R_SPEED", M_R_SPEED);
    ("M_R_SELECTFLOW", M_R_SELECTFLOW);
    ("M_W_SELECTFLOW", M_W_SELECTFLOW);
    ("M_R_STANDINTAKES", M_R_STANDINTAKES);
    ("M_W_STANDINTAKES", M_W_STANDINTAKES);
    ("M_R_INTAKEACTIVATION", M_R_INTAKEACTIVATION);
    ("M_W_INTAKEACTIVATION", M_W_INTAKEACTIVATION);
    ("M_R_SUCTIONDELAY", M_R_SUCTIONDELAY);
    ("M_W_SUCTIONDELAY", M_W_SUCTIONDELAY);
    ("M_R_DELAYTIME", M_R_DELAYTIME);
    ("M_R_ACTIVATIONPEDAL", M_R_ACTIVATIONPEDAL);
    ("M_W_ACTIVATIONPEDAL", M_W_ACTIVATIONPEDAL);
    ("M_R_PEDALMODE", M_R_PEDALMODE);
    ("M_W_PEDALMODE", M_W_PEDALMODE);
    ("M_R_FILTERSTATUS", M_R_FILTERSTATUS);
    ("M_R_RESETFILTER", M_R_RESETFILTER);
    ("M_R_CONNECTEDPEDAL", M_R_CONNECTEDPEDAL);
    ("M_R_FILTERSAT", M_R_FILTERSAT);
    ("M_RESETSTATION", M_RESETSTATION);
    ("M_R_PIN", M_R_PIN);
    ("M_W_PIN", M_W_PIN);
    ("M_R_STATIONLOCKED", M_R_STATIONLOCKED);
    ("M_W_STATIONLOCKED", M_W_STATIONLOCKED);
    ("M_R_BEEP", M_R_BEEP);
    ("M_W_BEEP", M_W_BEEP);
    ("M_R_CONTINUOUSSUCTION", M_R_CONTINUOUSSUCTION);
    ("M_W_CONTINUOUSSUCTION", M_W_CONTINUOUSSUCTION);
    ("M_R_STATERROR", M_R_STATERROR);
    ("M_R_DEVICENAME", M_R_DEVICENAME);
    ("M_W_DEVICENAME", M_W_DEVICENAME);
    ("M_R_PINENABLED", M_R_PINENABLED);
    ("M_W_PINENABLED", M_W_PINENABLED);
    ("M_W_WORKINTAKES", M_W_WORKINTAKES);
    ("M_R_COUNTERS", M_R_COUNTERS);
    ("M_R_RESETCOUNTERS", M_R_RESETCOUNTERS);
    ("M_R_COUNTERSP", M_R_COUNTERSP);
    ("M_R_RESETCOUNTERSP", M_R_RESETCOUNTERSP);
    ("M_R_USB_CONNECTSTATUS", M_R_USB_CONNECTSTATUS);
    ("M_W_USB_CONNECTSTATUS", M_W_USB_CONNECTSTATUS);
    ("M_R_RBT_CONNCONFIG", M_R_RBT_CONNCONFIG);
    ("M_W_RBT_CONNCONFIG", M_W_RBT_CONNCONFIG);
    ("M_R_RBT_CONNECTSTATUS", M_R_RBT_CONNECTSTATUS);
    ("M_W_RBT_CONNECTSTATUS", M_W_RBT_CONNECTSTATUS) ].

End FE_02.

(** ** Reading a table *)

(** The values a namespace defines, in declaration order. *)
Definition values (t : cmd_table) : list uint8_t := map snd t.

(** The names a namespace declares, in declaration order. *)
Definition names (t : cmd_table) : list string := map fst t.

(** [defines t b]: some constant of the namespace has the value [b]. *)
Definition defines (t : cmd_table) (b : Z) : Prop :=
  exists n, In (n, b) t.

(** Executable counterpart of [defines]. *)
Definition definesb (t : cmd_table) (b : Z) : bool :=
  existsb (Z.eqb b) (values t).

(** Dispatch on a byte: the first constant of the namespace with that
    value, if any. *)
Fixpoint name_of (t : cmd_table) (b : Z) : option string :=
  match t with
  | [] => None
  | (n, v) :: t' => if v =? b then Some n else name_of t' b
  end.

(** The value declared under a name, if any. *)
Fixpoint value_of (t : cmd_table) (n : string) : option uint8_t :=
  match t with
  | [] => None
  | (m, v) :: t' => if String.eqb m n then Some v else value_of t' n
  end.

(** A set of byte values written as a list of closed intervals
    [(lo, hi)]; a single value [v] is the interval [(v, v)]. *)
Definition ranges : Type := list (Z * Z).

Definition in_ranges (rs : ranges) (b : Z) : bool :=
  existsb (fun r => (fst r <=? b) && (b <=? snd r)) rs.

(** The FE_02 value set as the table has it: the gaps at 67, 90 and 95
    are not command identifiers. *)
Definition FE_02_value_ranges : ranges :=
  [ (0, 0); (4, 4); (6, 6); (21, 21); (22, 22);
    (28, 41); (48, 66); (68, 69); (80, 89); (91, 94); (96, 96);
    (192, 195); (224, 225); (240, 243) ].

(** The FE_02 value set in the words of the interface description:
    0, 4, 6, 21, 22, 28-41, 48-69, 80-96, 192-195, 224-225, 240-243. *)
Definition FE_02_described_ranges : ranges :=
  [ (0, 0); (4, 4); (6, 6); (21, 21); (22, 22);
    (28, 41); (48, 69); (80, 96);
    (192, 195); (224, 225); (240, 243) ].

(** The BASE value set. *)
Definition BASE_values : list Z := [0; 6; 21; 22; 32; 33].

(** Every value of the C type, in increasing order. *)
Definition all_bytes : list Z := map Z.of_nat (seq 0 256).

(** Executable test that a list has no repetition, for an element type
    with a boolean equality. *)
Fixpoint distinct_by {A : Type} (eqb : A -> A -> bool) (l : list A) : bool :=
  match l with
  | [] => true
  | x :: l' => negb (existsb (eqb x) l') && distinct_by eqb l'
  end.

(** ** Register naming convention

    A register [X] is read with [M_R_X] and written with [M_W_X]. *)

Fixpoint strip_prefix (p s : string) : option string :=
  match p with
  | EmptyString => Some s
  | String a p' =>
      match s with
      | EmptyString => None
      | String c s' => if Ascii.eqb a c then strip_prefix p' s' else None
      end
  end.

(** The write commands of a table carrying the register name [reg],
    paired with the read value [r]. *)
Definition writes_for (t : cmd_table) (reg : string) (r : uint8_t)
  : list (string * uint8_t * uint8_t) :=
  flat_map
    (fun e =>
       match strip_prefix "M_W_" (fst e) with
       | Some reg' => if String.eqb reg reg' then [(reg, r, snd e)] else []
       | None => []
       end) t.

(** All [(register, read value, write value)] triples of a table. *)
Definition read_write_pairs (t : cmd_table)
  : list (string * uint8_t * uint8_t) :=
  flat_map
    (fun e =>
       match strip_prefix "M_R_" (fst e) with
       | Some reg => writes_for t reg (snd e)
       | None => []
       end) t.

(** ** Namespaces and classification *)

(** The namespaces of [jbc_cmd] that the header defines.  Its leading
    comment also lists SOLD_01, SOLD_02, HA_02, PH_02 and SF_02, which
    this file of the registry does not contain. *)
Inductive Namespace : Type :=
  | NS_BASE
  | NS_FE_02.

Definition table_of (ns : Namespace) : cmd_table :=
  match ns with
  | NS_BASE => BASE.table
  | NS_FE_02 => FE_02.table
  end.



Inductive Classification : Type :=
  | BASE_control_op (n : string)
  | FE_02_op (n : string)
  | Unknown.

(** Modelled from the spec: the header holds only the constants and no
    [classify] function.  The registry contract is
    [classify(byte) -> {BASE control-op, FE_02 op, Unknown}]: a value of
    the BASE table is a BASE control operation, any other value of the
    FE_02 table is an FE_02 operation, and every other byte is
    [Unknown].  The lookup runs over the tables of the header. *)
Definition classify (b : Z) : Classification :=
  match name_of BASE.table b with
  | Some n => BASE_control_op n
  | None =>
      match name_of FE_02.table b with
      | Some n => FE_02_op n
      | None => Unknown
      end
  end.




(** ** Generic facts about tables *)

Section Table.

Variable t : cmd_table.

Lemma defines_In_values (b : Z) : defines t b <-> In b (values t).
Proof.
  unfold defines, values. rewrite in_map_iff. split.
  - intros [n H]. exists (n, b). auto.
  - intros [[n v] [E H]]. simpl in E. subst v. exists n. exact H.
Qed.

Lemma definesb_defines (b : Z) : definesb t b = true <-> defines t b.
Proof.
  rewrite defines_In_values. unfold definesb. rewrite existsb_exists. split.
  - intros [x [H E]]. apply Z.eqb_eq in E. subst x. exact H.
  - intros H. exists b. split; [exact H | apply Z.eqb_refl].
Qed.

Lemma name_of_Some (b : Z) (n : string) :
  name_of t b = Some n -> In (n, b) t.
Proof.
  induction t as [| [m v] t' IH]; simpl; [discriminate |].
  destruct (v =? b) eqn:E.
  - intros H. injection H as ->. apply Z.eqb_eq in E. subst v. now left.
  - intros H. right. now apply IH.
Qed.

Lemma name_of_None (b : Z) : name_of t b = None <-> ~ defines t b.
Proof.
  unfold defines. induction t as [| [m v] t' IH]; simpl.
  - split; [intros _ [n []] | reflexivity].
  - destruct (v =? b) eqn:E.
    + apply Z.eqb_eq in E. subst v. split; [discriminate |].
      intros H. exfalso. apply H. exists m. now left.
    + apply Z.eqb_neq in E. rewrite IH. split.
      * intros H [n [Hn | Hn]].
        -- injection Hn as _ Hv. contradiction.
        -- apply H. now exists n.
      * intros H [n Hn]. apply H. exists n. now right.
Qed.

Lemma name_of_defines (b : Z) :
  defines t b -> exists n, name_of t b = Some n /\ In (n, b) t.
Proof.
  intros H. destruct (name_of t b) as [n |] eqn:E.
  - exists n. split; [reflexivity | now apply name_of_Some].
  - apply name_of_None in E. contradiction.
Qed.

Lemma value_of_In (n : string) (v : Z) :
  value_of t n = Some v -> In (n, v) t.
Proof.
  induction t as [| [m w] t' IH]; simpl; [discriminate |].
  destruct (String.eqb m n) eqn:E.
  - intros H. injection H as ->. apply String.eqb_eq in E. subst m. now left.
  - intros H. right. now apply IH.
Qed.

End Table.

Lemma distinct_by_NoDup {A : Type} (eqb : A -> A -> bool) (l : list A) :
  (forall x, eqb x x = true) ->
  distinct_by eqb l = true -> NoDup l.
Proof.
  intros Hrefl. induction l as [| x l IH]; simpl; [constructor |].
  rewrite andb_true_iff, negb_true_iff. intros [Hx Hl].
  constructor; [| now apply IH].
  intros Hin. assert (existsb (eqb x) l = true) as C.
  { apply existsb_exists. exists x. split; [exact Hin | apply Hrefl]. }
  congruence.
Qed.

(** In a table whose values are pairwise distinct a value names at most
    one constant. *)
Lemma NoDup_values_name_unique (t : cmd_table) :
  NoDup (values t) ->
  forall n1 n2 b, In (n1, b) t -> In (n2, b) t -> n1 = n2.
Proof.
  unfold values. induction t as [| [m v] t' IH]; simpl; [contradiction |].
  intros ND n1 n2 b H1 H2. inversion ND as [| ? ? Hnot ND']; subst.
  assert (forall n, In (n, v) t' -> False) as Hv.
  { intros n Hn. apply Hnot. apply in_map_iff. now exists (n, v). }
  destruct H1 as [H1 | H1], H2 as [H2 | H2].
  - congruence.
  - injection H1 as _ ->. now apply Hv in H2.
  - injection H2 as _ ->. now apply Hv in H1.
  - now apply (IH ND' n1 n2 b).
Qed.

(** In a table whose values are pairwise distinct, dispatch on the value
    of a constant finds that constant. *)
Lemma NoDup_values_name_of (t : cmd_table) (n : string) (b : Z) :
  NoDup (values t) -> In (n, b) t -> name_of t b = Some n.
Proof.
  intros ND H.
  destruct (name_of_defines t b (ex_intro _ n H)) as [m [E Hm]].
  rewrite E. f_equal. exact (NoDup_values_name_unique t ND m n b Hm H).
Qed.

(** In a table whose names are pairwise distinct, looking a declared
    name up gives its value. *)
Lemma NoDup_names_value_of (t : cmd_table) (n : string) (v : Z) :
  NoDup (names t) -> In (n, v) t -> value_of t n = Some v.
Proof.
  unfold names. induction t as [| [m w] t' IH]; simpl; [contradiction |].
  intros ND H. inversion ND as [| ? ? Hnot ND']; subst.
  destruct H as [H | H].
  - injection H as -> ->. now rewrite String.eqb_refl.
  - destruct (String.eqb m n) eqn:E.
    + apply String.eqb_eq in E. subst m. exfalso. apply Hnot.
      apply in_map_iff. now exists (n, v).
    + now apply IH.
Qed.

Lemma all_bytes_spec (b : Z) : In b all_bytes <-> is_uint8 b.
Proof.
  unfold all_bytes, is_uint8. rewrite in_map_iff. split.
  - intros [k [E H]]. apply in_seq in H. lia.
  - intros H. exists (Z.to_nat b). split; [lia |]. apply in_seq. lia.
Qed.

(** A boolean property checked on the 256 byte values holds of every
    byte. *)
Lemma byte_forall (P : Z -> bool) :
  forallb P all_bytes = true -> forall b, is_uint8 b -> P b = true.
Proof.
  intros H b Hb. rewrite forallb_forall in H. apply H. now apply all_bytes_spec.
Qed.

Lemma in_ranges_spec (rs : ranges) (b : Z) :
  in_ranges rs b = true <-> exists lo hi, In (lo, hi) rs /\ lo <= b <= hi.
Proof.
  unfold in_ranges. rewrite existsb_exists. split.
  - intros [[lo hi] [H E]]. simpl in E. apply andb_true_iff in E.
    exists lo, hi. split; [exact H | lia].
  - intros [lo [hi [H E]]]. exists (lo, hi). split; [exact H |].
    simpl. apply andb_true_iff. lia.
Qed.

(** A set of intervals inside the byte range holds bytes only. *)
Lemma in_ranges_uint8 (rs : ranges) (b : Z) :
  forallb (fun r => (0 <=? fst r) && (snd r <? 256)) rs = true ->
  in_ranges rs b = true -> is_uint8 b.
Proof.
  intros Hrs H. apply in_ranges_spec in H. destruct H as [lo [hi [Hin Hb]]].
  rewrite forallb_forall in Hrs. apply Hrs in Hin. simpl in Hin.
  apply andb_true_iff in Hin. unfold is_uint8. lia.
Qed.

Lemma strip_prefix_app (p s : string) : strip_prefix p (p ++ s) = Some s.
Proof.
  induction p as [| a p IH]; simpl; [reflexivity |].
  now rewrite Ascii.eqb_refl.
Qed.

(** Every read command and write command of a table that carry the same
    register name appear together in [read_write_pairs]. *)
Lemma read_write_pairs_complete (t : cmd_table) (reg : string) (r w : Z) :
  In ("M_R_" ++ reg, r) t ->
  In ("M_W_" ++ reg, w) t ->
  In (reg, r, w) (read_write_pairs t).
Proof.
  intros Hr Hw. unfold read_write_pairs. apply in_flat_map.
  exists ("M_R_" ++ reg, r). split; [exact Hr |].
  cbn [fst snd]. rewrite strip_prefix_app.
  unfold writes_for. apply in_flat_map.
  exists ("M_W_" ++ reg, w). split; [exact Hw |].
  cbn [fst snd]. rewrite strip_prefix_app, String.eqb_refl. now left.
Qed.

(** ** The two tables *)

Ltac table_entry :=
  unfold BASE.table, FE_02.table; simpl;
  repeat (first [left; reflexivity | right]).

Lemma BASE_values_NoDup : NoDup (values BASE.table).
Proof.
  apply (distinct_by_NoDup Z.eqb); [apply Z.eqb_refl |].
  vm_compute. reflexivity.
Qed.

Lemma FE_02_values_NoDup : NoDup (values FE_02.table).
Proof.
  apply (distinct_by_NoDup Z.eqb); [apply Z.eqb_refl |].
  vm_compute. reflexivity.
Qed.

Lemma BASE_names_NoDup : NoDup (names BASE.table).
Proof.
  apply (distinct_by_NoDup String.eqb); [apply String.eqb_refl |].
  vm_compute. reflexivity.
Qed.

Lemma FE_02_names_NoDup : NoDup (names FE_02.table).
Proof.
  apply (distinct_by_NoDup String.eqb); [apply String.eqb_refl |].
  vm_compute. reflexivity.
Qed.

Lemma table_values_NoDup (ns : Namespace) : NoDup (values (table_of ns)).
Proof. destruct ns; [apply BASE_values_NoDup | apply FE_02_values_NoDup]. Qed.

Lemma BASE_entry_in_FE_02 (n : string) (v : Z) :
  In (n, v) BASE.table -> In (n, v) FE_02.table.
Proof.
  unfold BASE.table. simpl.
  intros [H | [H | [H | [H | [H | [H | []]]]]]];
    injection H as <- <-; table_entry.
Qed.

Lemma BASE_defines_iff (b : Z) : defines BASE.table b <-> In b BASE_values.
Proof.
  rewrite defines_In_values. vm_compute. tauto.
Qed.

Lemma table_values_uint8 (ns : Namespace) (b : Z) :
  defines (table_of ns) b -> is_uint8 b.
Proof.
  rewrite defines_In_values. intros H.
  assert (forallb (fun v => (0 <=? v) && (v <? 256)) (values (table_of ns))
          = true) as Hall by (destruct ns; vm_compute; reflexivity).
  rewrite forallb_forall in Hall. apply Hall in H.
  apply andb_true_iff in H. unfold is_uint8. lia.
Qed.

(** A value defined by some namespace is defined by FE_02. *)
Lemma defines_FE_02 (ns : Namespace) (b : Z) :
  defines (table_of ns) b -> defines FE_02.table b.
Proof.
  destruct ns; simpl; [| trivial].
  intros [n H]. exists n. now apply BASE_entry_in_FE_02.
Qed.

(** Across the two namespaces a value carries one name. *)
Lemma name_unique_across (ns1 ns2 : Namespace) (n1 n2 : string) (b : Z) :
  In (n1, b) (table_of ns1) -> In (n2, b) (table_of ns2) -> n1 = n2.
Proof.
  intros H1 H2.
  apply (NoDup_values_name_unique FE_02.table FE_02_values_NoDup n1 n2 b).
  - destruct ns1; [now apply BASE_entry_in_FE_02 | exact H1].
  - destruct ns2; [now apply BASE_entry_in_FE_02 | exact H2].
Qed.

Lemma classify_Unknown_iff (b : Z) :
  classify b = Unknown <-> ~ defines BASE.table b /\ ~ defines FE_02.table b.
Proof.
  unfold classify. rewrite <- !name_of_None.
  destruct (name_of BASE.table b); [split; [discriminate | intros [H _]; discriminate] |].
  destruct (name_of FE_02.table b); split; auto; try discriminate.
  intros [_ H]. discriminate.
Qed.




(** ** Properties of the registry *)

(** C1, as described: the description lists the FE_02 values as
    0, 4, 6, 21, 22, 28-41, 48-69, 80-96, 192-195, 224-225, 240-243.
    The value 67 lies in the described set, and no constant of the
    FE_02 namespace has that value. *)
Lemma FE_02_described_set_not_exact :
  is_uint8 67 /\
  in_ranges FE_02_described_ranges 67 = true /\
  ~ defines FE_02.table 67.
Proof.
  split; [unfold is_uint8; lia |]. split; [reflexivity |].
  rewrite <- definesb_defines. vm_compute. discriminate.
Qed.

(** C1, amended: a value is the value of some FE_02 constant if and only
    if it is one of 0, 4, 6, 21, 22, 28-41, 48-66, 68, 69, 80-89, 91-94,
    96, 192-195, 224, 225, 240-243. *)
Theorem FE_02_value_set (b : Z) :
  defines FE_02.table b <-> in_ranges FE_02_value_ranges b = true.
Proof.
  split.
  - rewrite defines_In_values. intros H.
    assert (forallb (in_ranges FE_02_value_ranges) (values FE_02.table)
            = true) as Hall by (vm_compute; reflexivity).
    rewrite forallb_forall in Hall. now apply Hall.
  - intros H.
    assert (is_uint8 b) as Hb.
    { apply (in_ranges_uint8 FE_02_value_ranges); [| exact H].
      vm_compute. reflexivity. }
    apply definesb_defines.
    assert (forallb
              (fun x => implb (in_ranges FE_02_value_ranges x)
                              (definesb FE_02.table x)) all_bytes = true)
      as Hall by (vm_compute; reflexivity).
    pose proof (byte_forall _ Hall b Hb) as Hi. cbv beta in Hi.
    rewrite H in Hi. exact Hi.
Qed.

Lemma FE_02_value_set_witness :
  defines FE_02.table 66 /\ in_ranges FE_02_value_ranges 68 = true.
Proof.
  split.
  - apply (proj2 (FE_02_value_set 66)). reflexivity.
  - apply (proj1 (FE_02_value_set 68)).
    exists "M_R_CONNECTEDPEDAL". table_entry.
Defined.

(** C2: the BASE namespace declares exactly six constants, M_HS = 0,
    M_ACK = 6, M_NACK = 21, M_SYN = 22, M_RESET = 32 and
    M_FIRMWARE = 33, so that its value set is {0, 6, 21, 22, 32, 33}. *)
Theorem BASE_six_commands :
  names BASE.table
  = ["M_HS"; "M_ACK"; "M_NACK"; "M_SYN"; "M_RESET"; "M_FIRMWARE"] /\
  value_of BASE.table "M_HS" = Some 0 /\
  value_of BASE.table "M_ACK" = Some 6 /\
  value_of BASE.table "M_NACK" = Some 21 /\
  value_of BASE.table "M_SYN" = Some 22 /\
  value_of BASE.table "M_RESET" = Some 32 /\
  value_of BASE.table "M_FIRMWARE" = Some 33 /\
  (forall n v, value_of BASE.table n = Some v <-> In (n, v) BASE.table) /\
  (forall b, defines BASE.table b <-> In b [0; 6; 21; 22; 32; 33]).
Proof.
  repeat (split; [reflexivity |]). split.
  - intros n v. split.
    + apply value_of_In.
    + unfold BASE.table. simpl.
      intros [H | [H | [H | [H | [H | [H | []]]]]]];
        injection H as <- <-; reflexivity.
  - apply BASE_defines_iff.
Qed.

Lemma BASE_six_commands_witness :
  In ("M_RESET", 32) BASE.table /\ defines BASE.table 33.
Proof.
  destruct BASE_six_commands as (_ & _ & _ & _ & _ & _ & _ & Hv & Hd).
  split.
  - apply (proj1 (Hv "M_RESET" 32)). reflexivity.
  - apply (proj2 (Hd 33)). simpl. tauto.
Defined.

(** C3: classification is total.  A byte that is the value of a constant
    of the BASE or FE_02 table classifies as a known operation naming a
    constant with that value; every other byte classifies as
    [Unknown]. *)
Theorem classify_total (b : Z) :
  (defines BASE.table b \/ defines FE_02.table b ->
   (exists n, classify b = BASE_control_op n /\ In (n, b) BASE.table) \/
   (exists n, classify b = FE_02_op n /\ In (n, b) FE_02.table)) /\
  (~ (defines BASE.table b \/ defines FE_02.table b) ->
   classify b = Unknown).
Proof.
  split.
  - intros H. unfold classify.
    destruct (name_of BASE.table b) as [n |] eqn:EB.
    + left. exists n. split; [reflexivity | now apply name_of_Some].
    + apply name_of_None in EB. destruct H as [H | H]; [contradiction |].
      destruct (name_of_defines FE_02.table b H) as [n [E Hin]].
      right. exists n. rewrite E. split; [reflexivity | exact Hin].
  - intros H. apply classify_Unknown_iff. tauto.
Qed.

Lemma classify_total_witness :
  ((exists n, classify 82 = BASE_control_op n /\ In (n, 82) BASE.table) \/
   (exists n, classify 82 = FE_02_op n /\ In (n, 82) FE_02.table)) /\
  classify 67 = Unknown.
Proof.
  split.
  - apply (proj1 (classify_total 82)). right. exists "M_W_PIN". table_entry.
  - apply (proj2 (classify_total 67)).
    rewrite <- !definesb_defines. vm_compute.
    intros [H | H]; discriminate H.
Defined.



(** C8: for every register of the FE_02 table that has both a read
    command M_R_X and a write command M_W_X, the value of the write
    command is the value of the read command plus one. *)
Theorem write_is_read_plus_one (reg : string) (r w : Z) :
  In ("M_R_" ++ reg, r) FE_02.table ->
  In ("M_W_" ++ reg, w) FE_02.table ->
  w = r + 1.
Proof.
  intros Hr Hw.
  pose proof (read_write_pairs_complete FE_02.table reg r w Hr Hw) as Hin.
  assert (forallb (fun p => snd p =? snd (fst p) + 1)
                  (read_write_pairs FE_02.table) = true) as Hall
    by (vm_compute; reflexivity).
  rewrite forallb_forall in Hall. apply Hall in Hin.
  cbn [fst snd] in Hin. now apply Z.eqb_eq in Hin.
Qed.

Lemma write_is_read_plus_one_witness :
  FE_02.M_W_RBT_CONNECTSTATUS = FE_02.M_R_RBT_CONNECTSTATUS + 1.
Proof.
  apply (write_is_read_plus_one "RBT_CONNECTSTATUS"); table_entry.
Defined.

(** C9: within each namespace the constants are pairwise distinct: two
    declarations of BASE with one value are the same declaration, and so
    for FE_02; dispatch on the value of a constant finds that
    constant. *)
Theorem constants_pairwise_distinct (ns : Namespace) :
  NoDup (names (table_of ns)) /\
  NoDup (values (table_of ns)) /\
  (forall n1 n2 v,
      In (n1, v) (table_of ns) -> In (n2, v) (table_of ns) -> n1 = n2) /\
  (forall n v, In (n, v) (table_of ns) -> name_of (table_of ns) v = Some n).
Proof.
  split; [destruct ns; [apply BASE_names_NoDup | apply FE_02_names_NoDup] |].
  split; [apply table_values_NoDup |]. split.
  - apply NoDup_values_name_unique, table_values_NoDup.
  - intros n v. apply NoDup_values_name_of, table_values_NoDup.
Qed.

Lemma constants_pairwise_distinct_witness :
  "M_W_BEEP" = "M_W_BEEP" /\
  name_of FE_02.table 86 = Some "M_W_BEEP" /\
  name_of BASE.table 21 = Some "M_NACK".
Proof.
  split; [| split].
  - apply (proj1 (proj2 (proj2 (constants_pairwise_distinct NS_FE_02)))
             "M_W_BEEP" "M_W_BEEP" 86); table_entry.
  - apply (proj2 (proj2 (proj2 (constants_pairwise_distinct NS_FE_02)))).
    table_entry.
  - apply (proj2 (proj2 (proj2 (constants_pairwise_distinct NS_BASE)))).
    table_entry.
Defined.

(** C10: every constant of the BASE namespace is declared in the FE_02
    namespace under the same name with the same value; hence the BASE
    value set is included in the FE_02 value set and the two tables
    agree on every shared name. *)
Theorem BASE_shared_with_FE_02 :
  (forall n v, In (n, v) BASE.table -> In (n, v) FE_02.table) /\
  (forall n v, In (n, v) BASE.table -> value_of FE_02.table n = Some v) /\
  (forall n v w, In (n, v) BASE.table -> In (n, w) FE_02.table -> v = w) /\
  (forall b, In b BASE_values -> defines FE_02.table b) /\
  BASE.M_HS = FE_02.M_HS /\
  BASE.M_ACK = FE_02.M_ACK /\
  BASE.M_NACK = FE_02.M_NACK /\
  BASE.M_SYN = FE_02.M_SYN /\
  BASE.M_RESET = FE_02.M_RESET /\
  BASE.M_FIRMWARE = FE_02.M_FIRMWARE.
Proof.
  assert (forall n v, In (n, v) BASE.table ->
                      value_of FE_02.table n = Some v) as Hv.
  { intros n v H. apply NoDup_names_value_of; [apply FE_02_names_NoDup |].
    now apply BASE_entry_in_FE_02. }
  split; [exact BASE_entry_in_FE_02 |]. split; [exact Hv |]. split.
  - intros n v w HB HF. apply Hv in HB.
    apply (NoDup_names_value_of _ _ _ FE_02_names_NoDup) in HF. congruence.
  - split; [| repeat split].
    intros b Hb. apply BASE_defines_iff in Hb.
    exact (defines_FE_02 NS_BASE b Hb).
Qed.

Lemma BASE_shared_with_FE_02_witness :
  In ("M_FIRMWARE", 33) FE_02.table /\
  value_of FE_02.table "M_SYN" = Some 22 /\
  defines FE_02.table 6.
Proof.
  destruct BASE_shared_with_FE_02 as (H1 & H2 & _ & H4 & _).
  split; [| split].
  - apply H1. table_entry.
  - apply H2. table_entry.
  - apply H4. unfold BASE_values. simpl. tauto.
Defined.

(** ** Further properties of the tables *)

(** X1: every initializer of both namespaces lies in the range of
    [uint8_t], so no declaration is narrowed by its type and each
    constant holds the number written in the header. *)
Theorem constants_fit_uint8 (ns : Namespace) (n : string) (v : Z) :
  In (n, v) (table_of ns) -> is_uint8 v.
Proof.
  intros H.
  assert (forallb (fun e => (0 <=? snd e) && (snd e <? 256)) (table_of ns)
          = true) as Hall by (destruct ns; vm_compute; reflexivity).
  rewrite forallb_forall in Hall. apply Hall in H. cbn [snd] in H.
  apply andb_true_iff in H. unfold is_uint8. lia.
Qed.

Lemma constants_fit_uint8_witness : is_uint8 243.
Proof.
  apply (constants_fit_uint8 NS_FE_02 "M_W_RBT_CONNECTSTATUS" 243).
  table_entry.
Defined.

(** X2: each namespace declares its constants in strictly increasing
    order of value: a constant declared later has a greater value than
    every constant declared before it. *)
Theorem declared_in_increasing_order (ns : Namespace) :
  StronglySorted Z.lt (values (table_of ns)).
Proof.
  apply Sorted_StronglySorted; [exact Z.lt_trans |].
  destruct ns; unfold values, table_of, BASE.table, FE_02.table;
    cbn [map snd];
    repeat (first [apply Sorted_nil | apply Sorted_cons
                  | apply HdRel_nil | apply HdRel_cons; reflexivity]).
Qed.

(** X3: every write command M_W_X of the FE_02 table other than
    M_W_WORKINTAKES has its read command M_R_X declared, one below the
    write value; M_W_WORKINTAKES is the only write command without a
    read command. *)
Theorem write_has_read_below :
  (forall reg w,
      In ("M_W_" ++ reg, w) FE_02.table ->
      reg <> "WORKINTAKES" ->
      In ("M_R_" ++ reg, w - 1) FE_02.table) /\
  In ("M_W_" ++ "WORKINTAKES", 96) FE_02.table /\
  (forall r, ~ In ("M_R_" ++ "WORKINTAKES", r) FE_02.table).
Proof.
  split; [| split].
  - intros reg w Hw Hne.
    assert (forallb
              (fun e =>
                 match strip_prefix "M_W_" (fst e) with
                 | Some reg' =>
                     String.eqb reg' "WORKINTAKES"
                     || existsb
                          (fun e' =>
                             String.eqb (fst e') ("M_R_" ++ reg')
                             && (snd e' =? snd e - 1)) FE_02.table
                 | None => true
                 end) FE_02.table = true) as Hall
      by (vm_compute; reflexivity).
    rewrite forallb_forall in Hall. apply Hall in Hw. cbn [fst snd] in Hw.
    rewrite strip_prefix_app in Hw. apply orb_true_iff in Hw.
    destruct Hw as [Hw | Hw].
    + apply String.eqb_eq in Hw. contradiction.
    + apply existsb_exists in Hw. destruct Hw as [[m v] [Hin E]].
      cbn [fst snd] in E. apply andb_true_iff in E. destruct E as [Em Ev].
      apply String.eqb_eq in Em. apply Z.eqb_eq in Ev. subst m v. exact Hin.
  - table_entry.
  - intros r Hr.
    assert (forallb (fun e => negb (String.eqb (fst e) "M_R_WORKINTAKES"))
                    FE_02.table = true) as Hall
      by (vm_compute; reflexivity).
    rewrite forallb_forall in Hall. apply Hall in Hr. cbn [fst] in Hr.
    change ("M_R_" ++ "WORKINTAKES") with "M_R_WORKINTAKES" in Hr.
    rewrite String.eqb_refl in Hr. discriminate Hr.
Qed.

Lemma write_has_read_below_witness :
  In ("M_R_" ++ "DEVICENAME", 92 - 1) FE_02.table.
Proof.
  apply (proj1 write_has_read_below "DEVICENAME" 92).
  - table_entry.
  - intros H. discriminate H.
Defined.
